(** * RapidCFD primitives: Vector<Cmpt> and specie

    A shallow embedding of
      - src/OpenFOAM/primitives/Vector/VectorI.H (constructors, axis
        accessors, [centre], inner product [&], cross product [^]),
      - the class [Foam::specie] as declared in specie.H,
    followed by the properties the specification states about them. *)

From Stdlib Require Import ZArith Bool Lia Floats.SpecFloat QArith Qcanon Field Lqa.
From stdpp Require Import base option fin vector numbers.

Set Default Proof Using "Type".

(** * Part I: the embedding *)

(** ** Component arithmetic

    [Vector<Cmpt>] is a template over its component type and [specie] is
    written over [scalar]; both only use the operators of that type.
    [Arith] is the interface of such a type: the C++ operators [+ - * /],
    unary minus, the literal 0 and the comparison [==]. *)

Class Arith (C : Type) := {
  zero : C;
  add : C -> C -> C;
  sub : C -> C -> C;
  mul : C -> C -> C;
  div : C -> C -> C;
  neg : C -> C;
  eqb : C -> C -> bool
}.

Declare Scope cmpt_scope.
Delimit Scope cmpt_scope with C.
Infix "+" := add : cmpt_scope.
Infix "-" := sub : cmpt_scope.
Infix "*" := mul : cmpt_scope.
Infix "/" := div : cmpt_scope.
Notation "- x" := (neg x) : cmpt_scope.

(** *** IEEE 754 binary floating point

    [scalar] is [double], or [float] in a single-precision build
    (scalar.H is not among the sources at hand): the operations are those of the executable
    IEEE specification of the standard library, for a format
    [(prec, emax)].  Every operation rounds its own result: a product is
    rounded before it enters a sum or a difference. *)

Definition ieee_arith (prec emax : Z) : Arith spec_float := {|
  zero := S754_zero false;
  add := SFadd prec emax;
  sub := SFsub prec emax;
  mul := SFmul prec emax;
  div := SFdiv prec emax;
  neg := SFopp;
  eqb := SFeqb
|}.

(** [double]. *)
Definition binary64 : Arith spec_float := ieee_arith 53 1024.

Module IEEE.

Definition is_zero (f : spec_float) : bool :=
  match f with S754_zero _ => true | _ => false end.

(** Zero or finite non-zero: neither an infinity nor a NaN. *)
Definition is_finite (f : spec_float) : bool :=
  match f with S754_zero _ | S754_finite _ _ _ => true | _ => false end.

(** The same value, where [+0] and [-0] count as the same (as they do for
    the C++ comparison [==]) and a NaN counts as the same as a NaN. *)
Definition same_value (f g : spec_float) : Prop :=
  f = g \/ (is_zero f = true /\ is_zero g = true).

(** The [double] nearest to an integer literal, and a power of two. *)
Definition lit (n : Z) : spec_float := binary_normalize 53 1024 n 0 false.
Definition pow2 (e : Z) : spec_float := binary_normalize 53 1024 1 e false.

(** A well-formed [double]. *)
Definition valid (f : spec_float) : bool := valid_binary 53 1024 f.

(** [f*g - c] computed by one fused multiply-add, [fma(f, g, -c)]: the
    product enters the subtraction unrounded and the difference is
    rounded once.  A compiler may contract a difference of products into
    this operation; where it does, the arithmetic of [ieee_arith] is not
    what runs. *)
Definition fused_mul_sub (prec emax : Z) (f g c : spec_float) : spec_float :=
  match f, g, c with
  | S754_finite _ _ _, S754_finite _ _ _, S754_nan => S754_nan
  | S754_finite _ _ _, S754_finite _ _ _, S754_infinity sc =>
      S754_infinity (negb sc)
  | S754_finite _ _ _, S754_finite _ _ _, S754_zero _ => SFmul prec emax f g
  | S754_finite sf mf ef, S754_finite sg mg eg, S754_finite sc mc ec =>
      let e := (ef + eg)%Z in
      let ez := Z.min e ec in
      binary_normalize prec emax
        (cond_Zopp (xorb sf sg) (Zpos (fst (shl_align (mf * mg) e ez)))
         - cond_Zopp sc (Zpos (fst (shl_align mc ec ez))))%Z
        ez false
  | _, _, _ => SFsub prec emax (SFmul prec emax f g) c
  end.

(** Not below zero: [+0], a positive number, [+inf], or a NaN. *)
Definition not_negative (f : spec_float) : bool :=
  match f with
  | S754_zero s | S754_infinity s | S754_finite s _ _ => negb s
  | S754_nan => true
  end.

End IEEE.

(** *** Exact arithmetic

    The rationals in canonical form: the arithmetic that floating point
    rounds. *)

#[export] Instance exact_arith : Arith Qc := {|
  zero := 0%Qc;
  add := Qcplus;
  sub := Qcminus;
  mul := Qcmult;
  div := Qcdiv;
  neg := Qcopp;
  eqb := fun p q => bool_decide (p = q)
|}.

(** An integer literal as an exact number. *)
Definition exact_lit (n : Z) : Qc := Q2Qc (inject_Z n).

(** ** Vector<Cmpt> (VectorI.H) *)

Module VectorI.

Definition nCmpt : nat := 3.

(** Modelled from the spec: the enumeration [components { X, Y, Z }] of
    Vector.H (not among the sources at hand) names the first, second and third position of
    the component array. *)
Module components.
Definition X : fin nCmpt := 0%fin.
Definition Y : fin nCmpt := 1%fin.
Definition Z : fin nCmpt := 2%fin.
End components.

Section Vector.
Context {Cmpt : Type} {A : Arith Cmpt}.
Local Open Scope cmpt_scope.

(** The object.  Its only data member is the array [Cmpt v_[nCmpt]] it
    inherits from [VectorSpace<Vector<Cmpt>, Cmpt, 3>].  A cell holds
    [None] as long as its value is indeterminate (never assigned). *)
Record Vector := mkVector { v_ : vec (option Cmpt) nCmpt }.

(** [this->v_[d]] read as a value; [None] is the read of an indeterminate
    value. *)
Definition load (this : Vector) (d : fin nCmpt) : option Cmpt := v_ this !!! d.

(** [this->v_[d] = c;] *)
Definition store (d : fin nCmpt) (c : Cmpt) (this : Vector) : Vector :=
  mkVector (vinsert d (Some c) (v_ this)).

(** The storage of an object in which nothing has been assigned yet:
    every cell is indeterminate.  (The base-class constructor
    [VectorSpace()] is not among the sources at hand; the constructors below are actions on
    whatever storage they are given.) *)
Definition raw : Vector := mkVector (vreplicate nCmpt None).

(** *** Constructors, as actions on the storage of [*this] *)

(** [inline Vector<Cmpt>::Vector() {}] *)
Definition Vector_null (this : Vector) : Vector := this.

(** [inline Vector<Cmpt>::Vector(const Cmpt& vx, const Cmpt& vy, const Cmpt& vz)
    { this->v_[X] = vx; this->v_[Y] = vy; this->v_[Z] = vz; }] *)
Definition Vector_xyz (vx vy vz : Cmpt) (this : Vector) : Vector :=
  let this := store components.X vx this in
  let this := store components.Y vy this in
  let this := store components.Z vz this in
  this.

(** The temporary [Vector<Cmpt>(vx, vy, vz)]. *)
Definition vector (vx vy vz : Cmpt) : Vector := Vector_xyz vx vy vz raw.

(** *** Member functions *)

(** [inline const Cmpt& Vector<Cmpt>::x() const { return this->v_[X]; }],
    and the same for [y] and [z]. *)
Definition x (this : Vector) : option Cmpt := load this components.X.
Definition y (this : Vector) : option Cmpt := load this components.Y.
Definition z (this : Vector) : option Cmpt := load this components.Z.

(** A [Cmpt&] into a vector: the cell of the array it designates. *)
Record CmptRef := mkRef { cell : fin nCmpt }.

Definition deref (this : Vector) (r : CmptRef) : option Cmpt := load this (cell r).

Definition assign (this : Vector) (r : CmptRef) (c : Cmpt) : Vector :=
  store (cell r) c this.

(** [inline Cmpt& Vector<Cmpt>::x() { return this->v_[X]; }], and the
    same for [y] and [z]. *)
Definition x_ref (this : Vector) : CmptRef := mkRef components.X.
Definition y_ref (this : Vector) : CmptRef := mkRef components.Y.
Definition z_ref (this : Vector) : CmptRef := mkRef components.Z.

(** [inline const Vector<Cmpt>& Vector<Cmpt>::centre
    (const Foam::List<Vector<Cmpt> >&) const { return *this; }] *)
Definition centre (this : Vector) (_ : list Vector) : Vector := this.

(** *** Global operators *)

(** [operator&(v1, v2)]:
    [return Cmpt(v1.x()*v2.x() + v1.y()*v2.y() + v1.z()*v2.z());] *)
Definition operator_amp (v1 v2 : Vector) : option Cmpt :=
  x1 ← x v1; x2 ← x v2;
  y1 ← y v1; y2 ← y v2;
  z1 ← z v1; z2 ← z v2;
  Some (x1 * x2 + y1 * y2 + z1 * z2).

(** [operator^(v1, v2)]:
    [return Vector<Cmpt>
     (
         (v1.y()*v2.z() - v1.z()*v2.y()),
         (v1.z()*v2.x() - v1.x()*v2.z()),
         (v1.x()*v2.y() - v1.y()*v2.x())
     );] *)
Definition operator_caret (v1 v2 : Vector) : option Vector :=
  c1 ← (y1 ← y v1; z2 ← z v2; z1 ← z v1; y2 ← y v2; Some (y1 * z2 - z1 * y2));
  c2 ← (z1 ← z v1; x2 ← x v2; x1 ← x v1; z2 ← z v2; Some (z1 * x2 - x1 * z2));
  c3 ← (x1 ← x v1; y2 ← y v2; y1 ← y v1; x2 ← x v2; Some (x1 * y2 - y1 * x2));
  Some (vector c1 c2 c3).

(** Modelled from the spec: the component-wise negation [-v] and the zero
    vector [Vector<Cmpt>::zero] belong to VectorSpace (not among the
    sources at hand); they only serve to state the algebraic laws of
    [operator^]. *)
Definition negate (v : Vector) : option Vector :=
  cx ← x v; cy ← y v; cz ← z v; Some (vector (- cx) (- cy) (- cz)).

Definition zero_vector : Vector := vector zero zero zero.

(** Every cell has been assigned. *)
Definition initialised (v : Vector) : bool :=
  match x v, y v, z v with
  | Some _, Some _, Some _ => true
  | _, _, _ => false
  end.

End Vector.

Arguments Vector Cmpt : clear implicits.

(** Two vectors of IEEE components that hold the same values, cell by
    cell. *)
Definition same_vector (v w : Vector spec_float) : Prop :=
  forall d, option_Forall2 IEEE.same_value (load v d) (load w d).

(** An expression has a value: it read no indeterminate component. *)
Definition defined {T : Type} (o : option T) : bool :=
  match o with Some _ => true | None => false end.

End VectorI.

(** ** specie (specie.H)

    The class body declares the data members and the operators; their
    bodies are in specieI.H, which is not among the sources at hand. *)

Module Specie.

Section Specie.
Context {scalar : Type} {A : Arith scalar}.
Local Open Scope cmpt_scope.

(** Private data: [scalar nMoles_;] and [scalar molWeight_;].  The member
    [word name_;] is commented out in the class. *)
Record specie := mkSpecie { nMoles_ : scalar; molWeight_ : scalar }.

(** Modelled from the spec: [inline scalar nMoles() const;] and
    [inline scalar W() const;] are declared in the class and defined in
    specieI.H (absent); they give the mole count and the molecular
    weight. *)
Definition nMoles (s : specie) : scalar := nMoles_ s.
Definition W (s : specie) : scalar := molWeight_ s.

(** Modelled from the spec: the body of
    [inline friend specie operator+(const specie&, const specie&);]
    is in specieI.H (absent).  The spec: a new specie with
    nMoles = a.nMoles + b.nMoles and
    molWeight = (a.nMoles*a.molWeight + b.nMoles*b.molWeight)
                / (a.nMoles + b.nMoles). *)
Definition operator_plus (a b : specie) : specie :=
  mkSpecie (nMoles a + nMoles b)
           ((nMoles a * W a + nMoles b * W b) / (nMoles a + nMoles b)).

(** Modelled from the spec: the body of
    [inline friend specie operator-(const specie&, const specie&);]
    is in specieI.H (absent).  The spec: the inverse of the above,
    remove b's moles from a and recompute the molecular weight so that
    (a - b) + b reconstructs a; that is nMoles = a.nMoles - b.nMoles and
    molWeight = (a.nMoles*a.molWeight - b.nMoles*b.molWeight)
                / (a.nMoles - b.nMoles). *)
Definition operator_minus (a b : specie) : specie :=
  mkSpecie (nMoles a - nMoles b)
           ((nMoles a * W a - nMoles b * W b) / (nMoles a - nMoles b)).

(** The types and the values the operators of the class can return. *)
Inductive type := T_bool | T_scalar | T_specie.

Inductive value :=
  | V_bool (b : bool)
  | V_scalar (c : scalar)
  | V_specie (s : specie).

Definition type_of (v : value) : type :=
  match v with
  | V_bool _ => T_bool
  | V_scalar _ => T_scalar
  | V_specie _ => T_specie
  end.

(** [inline friend specie operator==(const specie&, const specie&);]
    The declared result is a [specie].  The body is in specieI.H
    (absent): it is the parameter [body]. *)
Definition operator_eq (body : specie -> specie -> specie) (a b : specie) : value :=
  V_specie (body a b).

(** The comparison the specification describes for [==]: mole count and
    molecular weight both match. *)
Definition fieldwise_equal (a b : specie) : bool :=
  eqb (nMoles a) (nMoles b) && eqb (W a) (W b).

End Specie.

Arguments specie scalar : clear implicits.
Arguments value scalar : clear implicits.

End Specie.

(** * Part II: properties *)

(** ** Facts of IEEE arithmetic, for every format *)

Module IEEE_facts.
Import IEEE.

Section Format.
Variables prec emax : Z.

Lemma SFmul_comm (f g : spec_float) : SFmul prec emax f g = SFmul prec emax g f.
Proof.
  destruct f as [sf|sf| |sf mf ef], g as [sg|sg| |sg mg eg]; simpl;
    rewrite ?(xorb_comm sf sg); try reflexivity.
  now rewrite Pos.mul_comm, Z.add_comm.
Qed.

(** The sign only enters the last step of rounding. *)
Lemma SFopp_binary_round_aux s m e l :
  SFopp (binary_round_aux prec emax s m e l)
  = binary_round_aux prec emax (negb s) m e l.
Proof.
  unfold binary_round_aux.
  destruct (shr_fexp prec emax m e l) as [mrs' e'].
  destruct (shr_fexp prec emax _ e' loc_Exact) as [mrs'' e''].
  destruct (shr_m mrs''); simpl; try reflexivity.
  now destruct (Z.leb e'' (emax - prec)).
Qed.

Lemma SFopp_binary_round s m e :
  SFopp (binary_round prec emax s m e) = binary_round prec emax (negb s) m e.
Proof.
  unfold binary_round.
  destruct (shl_align m e _) as [mz ez].
  apply SFopp_binary_round_aux.
Qed.

(** Negating the integer significand negates the rounded value, up to the
    sign given to an exact zero. *)
Lemma binary_normalize_opp m e :
  same_value (binary_normalize prec emax m e false)
             (SFopp (binary_normalize prec emax (- m) e false)).
Proof.
  destruct m as [|p|p]; simpl.
  - right. split; reflexivity.
  - left. now rewrite SFopp_binary_round.
  - left. now rewrite SFopp_binary_round.
Qed.

(** [p - q] and [-(q - p)] are the same value. *)
Lemma SFsub_antisym (p q : spec_float) :
  same_value (SFsub prec emax p q) (SFopp (SFsub prec emax q p)).
Proof.
  destruct p as [sp|sp| |sp mp ep], q as [sq|sq| |sq mq eq_];
    try (left; reflexivity);
    try (destruct sp, sq; simpl;
         solve [left; reflexivity | right; split; reflexivity]);
    try (left; simpl; now rewrite negb_involutive).
  cbn [SFsub]. rewrite (Z.min_comm eq_ ep).
  set (ez := Z.min ep eq_).
  set (A := cond_Zopp sp _). set (B := cond_Zopp sq _).
  replace (B - A)%Z with (- (A - B))%Z by lia.
  apply binary_normalize_opp.
Qed.

(** A finite value minus itself is [+0]; an infinity or a NaN minus itself
    is a NaN. *)
Lemma SFsub_diag (p : spec_float) :
  SFsub prec emax p p = if is_finite p then S754_zero false else S754_nan.
Proof.
  destruct p as [s|s| |s m e]; simpl; try reflexivity.
  - now destruct s.
  - now destruct s.
  - now rewrite Z.sub_diag.
Qed.

End Format.

End IEEE_facts.

(** ** Vector<Cmpt> *)

Module VectorI_props.
Import VectorI.

(** Take a vector apart into its three cells, and the cells of two
    vectors into the values they may hold. *)
Ltac cells v c1 c2 c3 :=
  destruct v as [v]; unfold nCmpt in v; inv_vec v; intros c1 c2 c3.

Ltac cells2 a b a1 a2 a3 b1 b2 b3 :=
  cells a a1 a2 a3; cells b b1 b2 b3;
  destruct a1 as [a1|], a2 as [a2|], a3 as [a3|],
           b1 as [b1|], b2 as [b2|], b3 as [b3|].

Section AnyCmpt.
Context {Cmpt : Type} {A : Arith Cmpt}.
Local Open Scope cmpt_scope.

Implicit Types (this v a b : Vector Cmpt) (d : fin nCmpt).

Lemma vector_cells (vx vy vz : Cmpt) :
  v_ (vector vx vy vz) = [# Some vx; Some vy; Some vz].
Proof. reflexivity. Qed.

(** The three stores of the constructor overwrite whatever the storage
    held. *)
Lemma Vector_xyz_overwrites (vx vy vz : Cmpt) this :
  Vector_xyz vx vy vz this = vector vx vy vz.
Proof. cells this c1 c2 c3. reflexivity. Qed.

(** A vector with every cell assigned is the one built from its
    components. *)
Lemma initialised_vector v :
  initialised v = true -> exists cx cy cz, v = vector cx cy cz.
Proof.
  cells v c1 c2 c3. unfold initialised. cbn.
  destruct c1 as [cx|], c2 as [cy|], c3 as [cz|]; try discriminate.
  intros _. now exists cx, cy, cz.
Qed.

(** C5.  For a = (a1, a2, a3) and b = (b1, b2, b3) the cross product
    [a ^ b] returns the vector
    (a2*b3 - a3*b2, a3*b1 - a1*b3, a1*b2 - a2*b1): a vector of three
    assigned components whose x(), y() and z() are those three
    expressions. *)
Theorem cross_product_components (a1 a2 a3 b1 b2 b3 : Cmpt) :
  let c := vector (a2 * b3 - a3 * b2) (a3 * b1 - a1 * b3) (a1 * b2 - a2 * b1) in
  operator_caret (vector a1 a2 a3) (vector b1 b2 b3) = Some c
  /\ x c = Some (a2 * b3 - a3 * b2)
  /\ y c = Some (a3 * b1 - a1 * b3)
  /\ z c = Some (a1 * b2 - a2 * b1).
Proof. repeat split; reflexivity. Qed.

(** The cross product is defined exactly on operands whose cells are all
    assigned. *)
Lemma cross_product_defined a b :
  is_Some (operator_caret a b) <-> initialised a = true /\ initialised b = true.
Proof.
  cells2 a b a1 a2 a3 b1 b2 b3; unfold operator_caret, initialised; cbn;
    (split; [intros [? H]; try discriminate H; now split
            |intros [H1 H2]; try discriminate H1; try discriminate H2; eauto]).
Qed.

(** C8.  The accessors x(), y(), z() return the cells X, Y, Z of the
    component array, in the const overload (a value) and in the mutable
    overload (a reference): reading through the reference reads that cell,
    assigning through it writes that cell and no other, and the object
    holds nothing besides the three cells that indexing reads. *)
Theorem axis_accessors_view_component_array this :
  (x this = v_ this !!! components.X
   /\ y this = v_ this !!! components.Y
   /\ z this = v_ this !!! components.Z)
  /\ (deref this (x_ref this) = v_ this !!! components.X
      /\ deref this (y_ref this) = v_ this !!! components.Y
      /\ deref this (z_ref this) = v_ this !!! components.Z)
  /\ (forall c d,
        v_ (assign this (x_ref this) c) !!! d
        = if decide (d = components.X) then Some c else v_ this !!! d)
  /\ (forall c d,
        v_ (assign this (y_ref this) c) !!! d
        = if decide (d = components.Y) then Some c else v_ this !!! d)
  /\ (forall c d,
        v_ (assign this (z_ref this) c) !!! d
        = if decide (d = components.Z) then Some c else v_ this !!! d)
  /\ this = mkVector [# x this; y this; z this].
Proof.
  assert (Hw : forall e c d,
             v_ (store e c this) !!! d
             = if decide (d = e) then Some c else v_ this !!! d).
  { intros e c d. unfold store. cbn [v_].
    destruct (decide (d = e)) as [->|Hne].
    - apply vlookup_insert.
    - apply vlookup_insert_ne. congruence. }
  repeat split; try (intros c d; apply Hw).
  cells this c1 c2 c3. reflexivity.
Qed.

(** C9.  [v.centre(L)] returns [v] itself, whatever the list [L]. *)
Theorem centre_returns_this v (L : list (Vector Cmpt)) :
  centre v L = v /\ (forall L' : list (Vector Cmpt), centre v L' = centre v L).
Proof. split; reflexivity. Qed.

(** C10.  The default constructor [Vector()] assigns none of the three
    components: it leaves every cell of the storage as it found it, so on
    storage nothing has written to every component stays indeterminate,
    reading x(), y() or z() is an error, and the object is not the zero
    vector; the three-argument constructor, by contrast, assigns all
    three. *)
Theorem Vector_null_assigns_no_component :
  (forall this d, load (Vector_null this) d = load this d)
  /\ (forall d, load (Vector_null (@raw Cmpt)) d = None)
  /\ (x (Vector_null (@raw Cmpt)) = None
      /\ y (Vector_null (@raw Cmpt)) = None
      /\ z (Vector_null (@raw Cmpt)) = None)
  /\ initialised (Vector_null (@raw Cmpt)) = false
  /\ Vector_null raw <> zero_vector
  /\ (forall vx vy vz this, initialised (Vector_xyz vx vy vz this) = true).
Proof.
  repeat split; try reflexivity.
  - intros d. unfold Vector_null, load, raw. cbn [v_]. apply vlookup_replicate.
  - intros H. apply (f_equal x) in H. discriminate H.
  - intros vx vy vz this. now rewrite Vector_xyz_overwrites.
Qed.

(** The inner product commutes as soon as the multiplication of the
    components does. *)
Lemma operator_amp_comm_of_mul_comm a b :
  (forall p q : Cmpt, p * q = q * p) -> operator_amp a b = operator_amp b a.
Proof.
  intros Hc.
  cells2 a b a1 a2 a3 b1 b2 b3; unfold operator_amp; cbn; try reflexivity.
  now rewrite (Hc a1 b1), (Hc a2 b2), (Hc a3 b3).
Qed.

(** In a component arithmetic where [*] commutes, [p - q = -(q - p)] and
    [p - p = 0] hold exactly, the cross product anticommutes exactly and
    [a ^ a] is the zero vector. *)
Lemma operator_caret_anticomm_exact a b :
  (forall p q : Cmpt, p * q = q * p) ->
  (forall p q : Cmpt, p - q = - (q - p)) ->
  operator_caret a b = operator_caret b a ≫= negate.
Proof.
  intros Hc Ho.
  cells2 a b a1 a2 a3 b1 b2 b3; unfold operator_caret; cbn; try reflexivity.
  unfold negate. cbn. do 2 f_equal.
  - rewrite (Hc b2 a3), (Hc b3 a2). f_equal. apply Ho.
  - rewrite (Hc b3 a1), (Hc b1 a3). f_equal. apply Ho.
  - rewrite (Hc b1 a2), (Hc b2 a1). f_equal. apply Ho.
Qed.

Lemma operator_caret_self_exact (a1 a2 a3 : Cmpt) :
  (forall p q : Cmpt, p * q = q * p) ->
  (forall p : Cmpt, p - p = zero) ->
  operator_caret (vector a1 a2 a3) (vector a1 a2 a3) = Some zero_vector.
Proof.
  intros Hc Hd. unfold operator_caret. cbn.
  now rewrite (Hc a3 a2), (Hc a1 a3), (Hc a2 a1), !Hd.
Qed.

End AnyCmpt.

(** *** Vectors of IEEE scalars, for every format *)

Section IEEEScalars.
Variables prec emax : BinNums.Z.
Local Abbreviation fmt := (ieee_arith prec emax).
Local Abbreviation times := (SFmul prec emax).

Implicit Types (a b : Vector spec_float).

(** C7.  The inner product of two vectors of scalars is commutative:
    [a & b] and [b & a] are the same scalar (the same error when a
    component is indeterminate), in every IEEE format, special values
    included. *)
Theorem inner_product_commutative a b :
  @operator_amp _ fmt a b = @operator_amp _ fmt b a.
Proof.
  apply (@operator_amp_comm_of_mul_comm _ fmt).
  apply IEEE_facts.SFmul_comm.
Qed.

(** For vectors of IEEE scalars, each operation rounded on its own,
    [a ^ b] and [-(b ^ a)] hold the same value in every component, where
    [+0] and [-0] count as the same; and [a ^ a] is the zero vector
    exactly when the three products a2*a3, a3*a1 and a1*a2 are finite. *)
Lemma cross_product_anticommutative_ieee :
  (forall a b,
      option_Forall2 same_vector
        (@operator_caret _ fmt a b)
        (@operator_caret _ fmt b a ≫= @negate _ fmt))
  /\ (forall a1 a2 a3 : spec_float,
        @operator_caret _ fmt (vector a1 a2 a3) (vector a1 a2 a3)
        = Some (@zero_vector _ fmt)
        <-> IEEE.is_finite (times a2 a3) && IEEE.is_finite (times a3 a1)
            && IEEE.is_finite (times a1 a2) = true).
Proof.
  split.
  - intros a b.
    cells2 a b a1 a2 a3 b1 b2 b3; unfold operator_caret; cbn; try constructor.
    intros d. unfold load. cbn.
    inv_fin d; [|intros d; inv_fin d; [|intros d; inv_fin d; [|intros d; inv_fin d]]];
      cbn; constructor.
    + rewrite (IEEE_facts.SFmul_comm prec emax b2 a3),
              (IEEE_facts.SFmul_comm prec emax b3 a2).
      apply IEEE_facts.SFsub_antisym.
    + rewrite (IEEE_facts.SFmul_comm prec emax b3 a1),
              (IEEE_facts.SFmul_comm prec emax b1 a3).
      apply IEEE_facts.SFsub_antisym.
    + rewrite (IEEE_facts.SFmul_comm prec emax b1 a2),
              (IEEE_facts.SFmul_comm prec emax b2 a1).
      apply IEEE_facts.SFsub_antisym.
  - intros a1 a2 a3. unfold operator_caret, zero_vector. cbn.
    rewrite (IEEE_facts.SFmul_comm prec emax a3 a2),
            (IEEE_facts.SFmul_comm prec emax a1 a3),
            (IEEE_facts.SFmul_comm prec emax a2 a1),
            !IEEE_facts.SFsub_diag.
    split.
    + intros H. injection H as H1 H2 H3.
      destruct (IEEE.is_finite (times a2 a3)); [|discriminate H1].
      destruct (IEEE.is_finite (times a3 a1)); [|discriminate H2].
      destruct (IEEE.is_finite (times a1 a2)); [|discriminate H3].
      reflexivity.
    + intros H. apply andb_prop in H as [H H3]. apply andb_prop in H as [H1 H2].
      now rewrite H1, H2, H3.
Qed.

End IEEEScalars.

(** *** Concrete vectors of doubles *)

Section Doubles.
Local Abbreviation big := (IEEE.pow2 600).
Local Notation "a ^^ b" := (@operator_caret _ binary64 a b) (at level 30).

Example cross_of_123_456 :
  vector (IEEE.lit 1) (IEEE.lit 2) (IEEE.lit 3)
  ^^ vector (IEEE.lit 4) (IEEE.lit 5) (IEEE.lit 6)
  = Some (vector (IEEE.lit (-3)) (IEEE.lit 6) (IEEE.lit (-3))).
Proof. vm_compute. reflexivity. Qed.

(** C6, counterexample.  a = (2^600, 2^600, 2^600) is a vector of three
    finite doubles; every product of two components overflows to
    +infinity, so every component of [a ^ a] is inf - inf = NaN: [a ^ a]
    is not the zero vector, and no component of it compares equal to a
    component of [-(a ^ a)].  (Where the difference is fused the
    components are infinities instead, see [cross_product_self_fused]:
    not zero either.) *)
Lemma cross_product_self_overflow :
  let a := vector big big big in
  IEEE.valid big = true
  /\ a ^^ a = Some (vector S754_nan S754_nan S754_nan)
  /\ a ^^ a <> Some (@zero_vector _ binary64)
  /\ (a ^^ a ≫= @negate _ binary64) = Some (vector S754_nan S754_nan S754_nan)
  /\ @eqb _ binary64 S754_nan S754_nan = false
  /\ @eqb _ binary64 S754_nan (@zero _ binary64) = false.
Proof. vm_compute. repeat split; try reflexivity. discriminate. Qed.

(** At (1, 1, 1) the two sides of the anticommutation differ in the sign
    of their zeros only. *)
Example cross_product_signed_zero :
  let a := vector (IEEE.lit 1) (IEEE.lit 1) (IEEE.lit 1) in
  a ^^ a = Some (vector (S754_zero false) (S754_zero false) (S754_zero false))
  /\ (a ^^ a ≫= @negate _ binary64)
     = Some (vector (S754_zero true) (S754_zero true) (S754_zero true)).
Proof. vm_compute. split; reflexivity. Qed.

(** With a fused multiply-subtract the first component of [a ^ a],
    a.y*a.z - a.z*a.y, is the rounding error of the product: for
    a.y = a.z = 1 + 2^-52 the product is finite and the separately rounded
    difference is +0, but the fused one is 2^-104; and at 2^600 the fused
    difference is -infinity. *)
Lemma cross_product_self_fused :
  let c := S754_finite false 4503599627370497 (-52) in
  IEEE.valid c = true
  /\ IEEE.is_finite (SFmul 53 1024 c c) = true
  /\ SFsub 53 1024 (SFmul 53 1024 c c) (SFmul 53 1024 c c) = S754_zero false
  /\ IEEE.fused_mul_sub 53 1024 c c (SFmul 53 1024 c c) = IEEE.pow2 (-104)
  /\ IEEE.fused_mul_sub 53 1024 big big (SFmul 53 1024 big big)
     = S754_infinity true.
Proof. vm_compute. repeat split; reflexivity. Qed.

End Doubles.

(** *** Vectors of exact components *)

Example cross_of_axes :
  operator_caret (vector (exact_lit 1) (exact_lit 0) (exact_lit 0))
                 (vector (exact_lit 0) (exact_lit 1) (exact_lit 0))
  = Some (vector (exact_lit 0) (exact_lit 0) (exact_lit 1)).
Proof. vm_compute. reflexivity. Qed.

Example inner_of_123_456 :
  operator_amp (vector (exact_lit 1) (exact_lit 2) (exact_lit 3))
               (vector (exact_lit 4) (exact_lit 5) (exact_lit 6))
  = Some (exact_lit 32).
Proof. vm_compute. reflexivity. Qed.

Example inner_of_unassigned :
  operator_amp (Vector_null raw) (vector (exact_lit 4) (exact_lit 5) (exact_lit 6))
  = None.
Proof. reflexivity. Qed.

(** In exact arithmetic the cross product anticommutes and [a ^ a] is the
    zero vector, without exception. *)
Lemma cross_product_anticommutative_exact (a b : Vector Qc) :
  operator_caret a b = operator_caret b a ≫= negate.
Proof.
  apply operator_caret_anticomm_exact; intros; cbn; ring.
Qed.

Lemma cross_product_self_exact (a1 a2 a3 : Qc) :
  operator_caret (vector a1 a2 a3) (vector a1 a2 a3) = Some zero_vector.
Proof.
  apply operator_caret_self_exact; intros; cbn; ring.
Qed.

(** C6 (as amended).  In exact arithmetic [a ^ b] is the component-wise
    negation of [b ^ a] for every pair of vectors, and [a ^ a] is the zero
    vector for every vector (with all components assigned).  For IEEE
    scalars, in every format, provided each [*] and [-] of [operator^] is
    rounded on its own: [a ^ b] and [-(b ^ a)] hold the same value in
    every component, [+0] and [-0] counting as the same and a NaN as a
    NaN; each component of [a ^ a] is [+0] where the product it is made of
    (a2*a3, a3*a1, a1*a2 in turn) is finite and a NaN where it is not; so
    [a ^ a] is the zero vector exactly when the three products are
    finite. *)
Theorem cross_product_anticommutative :
  ((forall a b : Vector Qc, operator_caret a b = operator_caret b a ≫= negate)
   /\ (forall a : Vector Qc,
         operator_caret a a = if initialised a then Some zero_vector else None))
  /\ (forall prec emax : BinNums.Z,
        let fmt := ieee_arith prec emax in
        let self_difference (p : spec_float) :=
          if IEEE.is_finite p then S754_zero false else S754_nan in
        (forall a b : Vector spec_float,
            option_Forall2 same_vector
              (@operator_caret _ fmt a b)
              (@operator_caret _ fmt b a ≫= @negate _ fmt))
        /\ (forall a1 a2 a3 : spec_float,
              @operator_caret _ fmt (vector a1 a2 a3) (vector a1 a2 a3)
              = Some (vector (self_difference (SFmul prec emax a2 a3))
                             (self_difference (SFmul prec emax a3 a1))
                             (self_difference (SFmul prec emax a1 a2))))
        /\ (forall a1 a2 a3 : spec_float,
              @operator_caret _ fmt (vector a1 a2 a3) (vector a1 a2 a3)
              = Some (@zero_vector _ fmt)
              <-> IEEE.is_finite (SFmul prec emax a2 a3)
                  && IEEE.is_finite (SFmul prec emax a3 a1)
                  && IEEE.is_finite (SFmul prec emax a1 a2) = true)).
Proof.
  split; [split|].
  - apply cross_product_anticommutative_exact.
  - intros a. destruct (initialised a) eqn:E.
    + apply initialised_vector in E as (c1 & c2 & c3 & ->).
      apply cross_product_self_exact.
    + revert E. cells a c1 c2 c3. unfold initialised. cbn.
      now destruct c1, c2, c3.
  - intros prec emax fmt self_difference.
    destruct (cross_product_anticommutative_ieee prec emax) as [Hanti Hzero].
    split; [exact Hanti|]. split; [|exact Hzero].
    intros a1 a2 a3. unfold operator_caret, self_difference. cbn.
    now rewrite (IEEE_facts.SFmul_comm prec emax a3 a2),
                (IEEE_facts.SFmul_comm prec emax a1 a3),
                (IEEE_facts.SFmul_comm prec emax a2 a1),
                !IEEE_facts.SFsub_diag.
Qed.

(** C6, witness: the doubles a = (1, 2, 3), whose products 6, 3 and 2 are
    finite. *)
Lemma cross_product_anticommutative_witness :
  let a1 := IEEE.lit 1 in
  let a2 := IEEE.lit 2 in
  let a3 := IEEE.lit 3 in
  IEEE.is_finite (SFmul 53 1024 a2 a3) && IEEE.is_finite (SFmul 53 1024 a3 a1)
  && IEEE.is_finite (SFmul 53 1024 a1 a2) = true
  /\ @operator_caret _ binary64 (vector a1 a2 a3) (vector a1 a2 a3)
     = Some (@zero_vector _ binary64).
Proof.
  intros a1 a2 a3.
  assert (H : IEEE.is_finite (SFmul 53 1024 a2 a3)
              && IEEE.is_finite (SFmul 53 1024 a3 a1)
              && IEEE.is_finite (SFmul 53 1024 a1 a2) = true)
    by (vm_compute; reflexivity).
  split; [exact H|].
  exact (proj2 (proj2 (proj2 (proj2 cross_product_anticommutative 53%Z 1024%Z))
                 a1 a2 a3) H).
Defined.

End VectorI_props.

(** ** specie *)

Module Specie_props.
Import Specie.

Local Open Scope cmpt_scope.

Section AnyScalar.
Context {scalar : Type} {A : Arith scalar}.

Implicit Types (a b : specie scalar).

(** A specie is its mole count and its molecular weight, nothing else. *)
Lemma specie_eta a : a = mkSpecie (nMoles a) (W a).
Proof. now destruct a. Qed.

End AnyScalar.

(** C1.  [a + b] is the specie with nMoles = a.nMoles + b.nMoles and
    molWeight = (a.nMoles*a.molWeight + b.nMoles*b.molWeight)
                / (a.nMoles + b.nMoles);
    in particular specie(2.0, 28.0) + specie(1.0, 32.0) has nMoles = 3.0
    and molWeight = (2*28 + 1*32)/3, which is 88/3 in exact arithmetic and
    the double 8256599316845909 * 2^-48 = 29.333... in double precision. *)
Theorem operator_plus_mole_weighted_mixing :
  (forall (scalar : Type) (A : Arith scalar) (a b : specie scalar),
      nMoles (operator_plus a b) = nMoles a + nMoles b
      /\ W (operator_plus a b)
         = (nMoles a * W a + nMoles b * W b) / (nMoles a + nMoles b))
  /\ (let a := mkSpecie (IEEE.lit 2) (IEEE.lit 28) in
      let b := mkSpecie (IEEE.lit 1) (IEEE.lit 32) in
      let c := @operator_plus _ binary64 a b in
      nMoles c = IEEE.lit 3
      /\ W c = @div _ binary64
                 (@add _ binary64 (@mul _ binary64 (IEEE.lit 2) (IEEE.lit 28))
                                  (@mul _ binary64 (IEEE.lit 1) (IEEE.lit 32)))
                 (IEEE.lit 3)
      /\ W c = S754_finite false 8256599316845909 (-48))
  /\ (let a := mkSpecie (exact_lit 2) (exact_lit 28) in
      let b := mkSpecie (exact_lit 1) (exact_lit 32) in
      let c := operator_plus a b in
      nMoles c = exact_lit 3
      /\ W c = (exact_lit 2 * exact_lit 28 + exact_lit 1 * exact_lit 32) / exact_lit 3
      /\ W c = Q2Qc (88 # 3)).
Proof.
  split; [|split].
  - intros scalar A a b. split; reflexivity.
  - vm_compute. repeat split; reflexivity.
  - cbn zeta. repeat split; apply Qc_is_canon; reflexivity.
Qed.

(** *** Subtraction after addition *)

(** Mixing forgets the molecular weight of an operand that has no moles:
    two species that differ in it give the same mixture. *)
Lemma operator_plus_forgets_weight_of_zero_moles (w w' : Qc) (b : specie Qc) :
  operator_plus (mkSpecie 0%Qc w) b = operator_plus (mkSpecie 0%Qc w') b.
Proof.
  unfold operator_plus, nMoles, W. cbn. now rewrite !Qcmult_0_l.
Qed.

(** So no operation at all undoes the mixing on every pair of species
    with non-negative mole counts and a positive total. *)
Lemma operator_plus_has_no_inverse (minus : specie Qc -> specie Qc -> specie Qc) :
  ~ (forall a b : specie Qc,
        (0 <= nMoles a)%Qc -> (0 <= nMoles b)%Qc ->
        (0 < nMoles a + nMoles b)%Qc ->
        minus (operator_plus a b) b = a).
Proof.
  intros H.
  pose (b := mkSpecie (exact_lit 1) (exact_lit 32)).
  assert (H1 : minus (operator_plus (mkSpecie 0%Qc (exact_lit 28)) b) b
               = mkSpecie 0%Qc (exact_lit 28))
    by (apply H; vm_compute; first [reflexivity | discriminate]).
  assert (H2 : minus (operator_plus (mkSpecie 0%Qc (exact_lit 30)) b) b
               = mkSpecie 0%Qc (exact_lit 30))
    by (apply H; vm_compute; first [reflexivity | discriminate]).
  rewrite (operator_plus_forgets_weight_of_zero_moles _ (exact_lit 30)) in H1.
  rewrite H2 in H1.
  apply (f_equal (fun s => this (W s))) in H1. vm_compute in H1. discriminate H1.
Qed.

(** C3, counterexample.  In double precision a = specie(0, 28) and
    b = specie(1, 32) satisfy a.nMoles + b.nMoles > 0 and every mole count
    on the way is non-negative, but (a + b) - b = specie(0, NaN): the
    molecular weight 28 of a is lost.  The same a and b fail in exact
    arithmetic.  And a = specie(2^-60, 28), with positive moles, and the
    same b give (a + b) - b = specie(0, NaN) in double precision. *)
Lemma minus_after_plus_loses_operand :
  (let a := mkSpecie (IEEE.lit 0) (IEEE.lit 28) in
   let b := mkSpecie (IEEE.lit 1) (IEEE.lit 32) in
   let s := @operator_plus _ binary64 a b in
   let r := @operator_minus _ binary64 s b in
   (SFltb (IEEE.lit 0) (@add _ binary64 (nMoles a) (nMoles b)) = true
    /\ SFleb (IEEE.lit 0) (nMoles a) = true
    /\ SFleb (IEEE.lit 0) (nMoles b) = true
    /\ SFleb (IEEE.lit 0) (nMoles s) = true
    /\ SFleb (IEEE.lit 0) (nMoles r) = true)
   /\ s = mkSpecie (IEEE.lit 1) (IEEE.lit 32)
   /\ r = mkSpecie (IEEE.lit 0) S754_nan
   /\ r <> a)
  /\ (let a := mkSpecie (exact_lit 0) (exact_lit 28) in
      let b := mkSpecie (exact_lit 1) (exact_lit 32) in
      let s := operator_plus a b in
      let r := operator_minus s b in
      ((0 < nMoles a + nMoles b)%Qc
       /\ (0 <= nMoles a)%Qc /\ (0 <= nMoles b)%Qc
       /\ (0 <= nMoles s)%Qc /\ (0 <= nMoles r)%Qc)
      /\ r <> a)
  /\ (let a := mkSpecie (IEEE.pow2 (-60)) (IEEE.lit 28) in
      let b := mkSpecie (IEEE.lit 1) (IEEE.lit 32) in
      let s := @operator_plus _ binary64 a b in
      let r := @operator_minus _ binary64 s b in
      (IEEE.valid (nMoles a) = true
       /\ SFltb (IEEE.lit 0) (nMoles a) = true
       /\ SFltb (IEEE.lit 0) (@add _ binary64 (nMoles a) (nMoles b)) = true)
      /\ s = mkSpecie (IEEE.lit 1) (IEEE.lit 32)
      /\ r = mkSpecie (IEEE.lit 0) S754_nan
      /\ r <> a).
Proof.
  split; [|split].
  - vm_compute. repeat split; try reflexivity. discriminate.
  - cbn zeta. repeat split;
      vm_compute; first [reflexivity | discriminate].
  - vm_compute. repeat split; try reflexivity. discriminate.
Qed.

(** C3 (as amended).  In exact arithmetic, for every specie a and b with
    a.nMoles > 0 and a.nMoles + b.nMoles > 0, (a + b) - b is a. *)
Theorem minus_undoes_plus_exact (a b : specie Qc) :
  (0 < nMoles a)%Qc -> (0 < nMoles a + nMoles b)%Qc ->
  operator_minus (operator_plus a b) b = a.
Proof.
  destruct a as [na wa], b as [nb wb].
  unfold operator_minus, operator_plus, nMoles, W. cbn.
  intros Ha Hab.
  assert (Hna : na <> 0%Qc) by (apply not_eq_sym, Qclt_not_eq, Ha).
  assert (Hs : (na + nb)%Qc <> 0%Qc) by (apply not_eq_sym, Qclt_not_eq, Hab).
  f_equal.
  - ring.
  - field. split; [exact Hs|].
    intros E. apply Hna. rewrite <- E. ring.
Qed.

(** C3, witness: a = specie(2, 28), b = specie(1, 32). *)
Lemma minus_undoes_plus_exact_witness :
  let a := mkSpecie (exact_lit 2) (exact_lit 28) in
  let b := mkSpecie (exact_lit 1) (exact_lit 32) in
  ((0 < nMoles a)%Qc /\ (0 < nMoles a + nMoles b)%Qc)
  /\ operator_minus (operator_plus a b) b = a.
Proof.
  intros a b.
  assert (Ha : (0 < nMoles a)%Qc) by (vm_compute; reflexivity).
  assert (Hab : (0 < nMoles a + nMoles b)%Qc) by (vm_compute; reflexivity).
  split; [split; assumption|].
  exact (minus_undoes_plus_exact a b Ha Hab).
Defined.

(** *** The operator [==] *)

(** C2, counterexample.  s = specie(1, 18) matches itself in mole count
    and molecular weight, yet [s == s] is not the boolean [true], whatever
    the body of the operator: its result is a specie. *)
Lemma operator_eq_is_no_comparison :
  let s := mkSpecie (exact_lit 1) (exact_lit 18) in
  fieldwise_equal s s = true
  /\ ~ (exists body, operator_eq body s s = V_bool true).
Proof.
  split.
  - vm_compute. reflexivity.
  - intros [body H]. discriminate H.
Qed.

(** C2 (as amended).  The operator [==] on two specie values returns a
    specie, as [+], [-] and [*] do, and never the boolean of the
    field-wise comparison; a specie carries a mole count and a molecular
    weight and no name. *)
Theorem operator_eq_returns_specie
    (scalar : Type) (A : Arith scalar)
    (body : specie scalar -> specie scalar -> specie scalar)
    (a b : specie scalar) :
  type_of (operator_eq body a b) = T_specie
  /\ operator_eq body a b <> V_bool (fieldwise_equal a b)
  /\ a = mkSpecie (nMoles a) (W a) /\ b = mkSpecie (nMoles b) (W b).
Proof.
  repeat split; try apply specie_eta. discriminate.
Qed.

End Specie_props.

(** ** More facts of arithmetic *)

Module Arith_facts.
Import IEEE.

(** A sum of three squares of rationals is not negative, and is zero only
    when the three numbers are. *)
Lemma Q_sum_of_squares (p q r : Q) :
  (0 <= p * p + q * q + r * r)%Q
  /\ ((p * p + q * q + r * r == 0)%Q -> (p == 0 /\ q == 0 /\ r == 0)%Q).
Proof. split; [nra|]. intros H. repeat split; nra. Qed.

Lemma Qc_sum_of_squares (p q r : Qc) :
  (0 <= p * p + q * q + r * r)%Qc
  /\ ((p * p + q * q + r * r)%Qc = 0%Qc -> p = 0%Qc /\ q = 0%Qc /\ r = 0%Qc).
Proof.
  destruct (Q_sum_of_squares p q r) as [H1 H2].
  assert (E : (this (p * p + q * q + r * r)%Qc == p * p + q * q + r * r)%Q).
  { unfold Qcplus, Qcmult, Q2Qc; cbn [this]. now rewrite !Qred_correct. }
  split.
  - unfold Qcle. rewrite E. exact H1.
  - intros H. rewrite H in E.
    destruct H2 as (Hp & Hq & Hr); [symmetry; exact E|].
    repeat split; apply Qc_is_canon; assumption.
Qed.

Section Format.
Variables prec emax : Z.

(** Rounding keeps the sign it is given. *)
Lemma binary_round_aux_not_negative m e l :
  not_negative (binary_round_aux prec emax false m e l) = true.
Proof.
  unfold binary_round_aux.
  destruct (shr_fexp prec emax m e l) as [mrs' e'].
  destruct (shr_fexp prec emax _ e' loc_Exact) as [mrs'' e''].
  destruct (shr_m mrs''); simpl; try reflexivity.
  now destruct (Z.leb e'' (emax - prec)).
Qed.

Lemma binary_round_not_negative m e :
  not_negative (binary_round prec emax false m e) = true.
Proof.
  unfold binary_round. destruct (shl_align m e _) as [mz ez].
  apply binary_round_aux_not_negative.
Qed.

(** A square is [+0], positive, [+inf] or a NaN. *)
Lemma SFmul_self_not_negative (f : spec_float) :
  not_negative (SFmul prec emax f f) = true.
Proof.
  destruct f as [s|s| |s m e]; simpl; rewrite ?xorb_nilpotent; try reflexivity.
  apply binary_round_aux_not_negative.
Qed.

(** So is the sum of two such numbers. *)
Lemma SFadd_not_negative (f g : spec_float) :
  not_negative f = true -> not_negative g = true ->
  not_negative (SFadd prec emax f g) = true.
Proof.
  destruct f as [[]|[]| |[] mf ef], g as [[]|[]| |[] mg eg]; simpl;
    intros Hf Hg; try discriminate; try reflexivity.
  apply binary_round_not_negative.
Qed.

Lemma not_negative_not_below_zero (f : spec_float) :
  not_negative f = true -> SFltb f (S754_zero false) = false.
Proof. now destruct f as [[]|[]| |[] m e]. Qed.

(** The product of two negated numbers is the product of the numbers. *)
Lemma SFmul_opp_opp (f g : spec_float) :
  SFmul prec emax (SFopp f) (SFopp g) = SFmul prec emax f g.
Proof.
  destruct f as [sf|sf| |sf mf ef], g as [sg|sg| |sg mg eg]; simpl;
    try reflexivity; now destruct sf, sg.
Qed.

End Format.

End Arith_facts.

(** ** Vector<Cmpt>: construction, access and the two products together *)

Module VectorI_laws.
Import VectorI VectorI_props.

Section AnyCmpt.
Context {Cmpt : Type} {A : Arith Cmpt}.
Local Open Scope cmpt_scope.

Implicit Types (this v a b : Vector Cmpt).

Lemma vector_ext (a1 a2 a3 b1 b2 b3 : Cmpt) :
  a1 = b1 -> a2 = b2 -> a3 = b3 -> vector a1 a2 a3 = vector b1 b2 b3.
Proof. now intros -> -> ->. Qed.

(** X1.  Whatever the storage held, after [Vector(vx, vy, vz)] the
    accessors x(), y(), z() return vx, vy, vz; and constructing a vector
    from the x(), y(), z() of a vector whose components are all assigned
    gives that vector back. *)
Theorem construct_access_round_trip (vx vy vz : Cmpt) this v :
  (x (Vector_xyz vx vy vz this) = Some vx
   /\ y (Vector_xyz vx vy vz this) = Some vy
   /\ z (Vector_xyz vx vy vz this) = Some vz)
  /\ match x v, y v, z v with
     | Some cx, Some cy, Some cz => Vector_xyz cx cy cz this = v
     | _, _, _ => initialised v = false
     end.
Proof.
  rewrite Vector_xyz_overwrites. split; [repeat split|].
  cells v c1 c2 c3. unfold initialised. cbn.
  destruct c1, c2, c3; try reflexivity. apply Vector_xyz_overwrites.
Qed.

(** X2.  Assigning the three components through the references x(), y(),
    z() gives the vector the constructor builds, in whichever order the
    assignments are made and whatever the object held; assignments to
    different axes commute, and of two assignments to one axis the last
    wins. *)
Theorem mutable_accessors_compose this (vx vy vz c : Cmpt) :
  let ax v := assign v (x_ref v) vx in
  let ay v := assign v (y_ref v) vy in
  let az v := assign v (z_ref v) vz in
  (az (ay (ax this)) = vector vx vy vz /\ ay (az (ax this)) = vector vx vy vz
   /\ az (ax (ay this)) = vector vx vy vz /\ ax (az (ay this)) = vector vx vy vz
   /\ ay (ax (az this)) = vector vx vy vz /\ ax (ay (az this)) = vector vx vy vz)
  /\ (ax (ay this) = ay (ax this) /\ ax (az this) = az (ax this)
      /\ ay (az this) = az (ay this))
  /\ (ax (assign this (x_ref this) c) = ax this
      /\ ay (assign this (y_ref this) c) = ay this
      /\ az (assign this (z_ref this) c) = az this).
Proof. cells this c1 c2 c3. repeat split; reflexivity. Qed.

(** X3.  The inner product has a value exactly when all six components
    it reads are assigned: one indeterminate component in either operand
    makes the whole expression an error. *)
Theorem inner_product_defined a b :
  defined (operator_amp a b) = initialised a && initialised b.
Proof.
  cells2 a b a1 a2 a3 b1 b2 b3; reflexivity.
Qed.

(** X4.  The cross product has a value exactly when all the components of
    both operands are assigned, and then all three components of the
    result are assigned: it never returns a partly assigned vector. *)
Theorem cross_product_defined_and_assigned a b :
  defined (operator_caret a b) = initialised a && initialised b
  /\ from_option initialised true (operator_caret a b) = true.
Proof.
  cells2 a b a1 a2 a3 b1 b2 b3; split; reflexivity.
Qed.

End AnyCmpt.

(** *** Exact arithmetic: identities between the two products *)

Section Exact.
Implicit Types (a b c d : Vector Qc).

Ltac cells_opt v v1 v2 v3 :=
  cells v v1 v2 v3; destruct v1 as [v1|], v2 as [v2|], v3 as [v3|].

(** X5.  In exact arithmetic the dot and the cross of the scalar triple
    product can be exchanged: [(a ^ b) & c] and [a & (b ^ c)] are the same
    number, and both are an error when a component of a, b or c is
    indeterminate. *)
Theorem triple_product_exchange a b c :
  operator_caret a b ≫= (fun ab => operator_amp ab c)
  = operator_caret b c ≫= operator_amp a.
Proof.
  cells_opt a a1 a2 a3; cells_opt b b1 b2 b3; cells_opt c c1 c2 c3;
    try reflexivity.
  cbn. f_equal. ring.
Qed.

(** X6.  In exact arithmetic [a ^ b] is orthogonal to both operands:
    its inner product with a and with b is 0 whenever the cross product
    has a value. *)
Theorem cross_product_orthogonal a b :
  operator_caret a b ≫= operator_amp a
  = (if initialised a && initialised b then Some 0%Qc else None)
  /\ operator_caret a b ≫= operator_amp b
     = (if initialised a && initialised b then Some 0%Qc else None).
Proof.
  cells_opt a a1 a2 a3; cells_opt b b1 b2 b3; try (split; reflexivity).
  cbn. split; f_equal; ring.
Qed.

(** X7.  In exact arithmetic the inner product of two cross products is
    [(a ^ b) & (c ^ d) = (a & c)*(b & d) - (a & d)*(b & c)]; with c = a
    and d = b this is the squared length of [a ^ b].  Both sides are an
    error when a component of any of the four vectors is indeterminate. *)
Theorem inner_product_of_cross_products a b c d :
  operator_caret a b ≫= (fun ab => operator_caret c d ≫= operator_amp ab)
  = (ac ← operator_amp a c; bd ← operator_amp b d;
     ad ← operator_amp a d; bc ← operator_amp b c;
     Some (ac * bd - ad * bc)%Qc).
Proof.
  cells_opt a a1 a2 a3; cells_opt b b1 b2 b3;
    cells_opt c c1 c2 c3; cells_opt d d1 d2 d3; try reflexivity.
  cbn. f_equal. ring.
Qed.

(** X9.  In exact arithmetic [a & a] is never negative, and it is 0 only
    for the zero vector. *)
Theorem inner_product_self_definite a :
  match operator_amp a a with
  | Some r => (0 <= r)%Qc /\ (r = 0%Qc <-> a = zero_vector)
  | None => initialised a = false
  end.
Proof.
  cells_opt a a1 a2 a3; try reflexivity. cbn.
  destruct (Arith_facts.Qc_sum_of_squares a1 a2 a3) as [H1 H2].
  split; [exact H1|]. split.
  - intros H. destruct (H2 H) as (-> & -> & ->). reflexivity.
  - intros H. injection H as -> -> ->. ring.
Qed.

(** X11.  In exact arithmetic both products are linear in their first
    operand: for s = k*a + b, component by component,
    [s & c = k*(a & c) + (b & c)] and [s ^ c = k*(a ^ c) + (b ^ c)]. *)
Theorem products_linear_in_first_operand (k a1 a2 a3 b1 b2 b3 c1 c2 c3 : Qc) :
  let a := vector a1 a2 a3 in
  let b := vector b1 b2 b3 in
  let c := vector c1 c2 c3 in
  let s := vector (k * a1 + b1)%Qc (k * a2 + b2)%Qc (k * a3 + b3)%Qc in
  operator_amp s c
  = (p ← operator_amp a c; q ← operator_amp b c; Some (k * p + q)%Qc)
  /\ exists p1 p2 p3 q1 q2 q3 : Qc,
       operator_caret a c = Some (vector p1 p2 p3)
       /\ operator_caret b c = Some (vector q1 q2 q3)
       /\ operator_caret s c
          = Some (vector (k * p1 + q1)%Qc (k * p2 + q2)%Qc (k * p3 + q3)%Qc).
Proof.
  cbn zeta. split; [cbn; f_equal; ring|].
  exists (a2 * c3 - a3 * c2)%Qc, (a3 * c1 - a1 * c3)%Qc, (a1 * c2 - a2 * c1)%Qc,
         (b2 * c3 - b3 * c2)%Qc, (b3 * c1 - b1 * c3)%Qc, (b1 * c2 - b2 * c1)%Qc.
  split; [reflexivity|]. split; [reflexivity|].
  apply (f_equal Some), vector_ext; cbn; ring.
Qed.

End Exact.

(** *** IEEE scalars, every format *)

Section IEEEScalars.
Variables prec emax : BinNums.Z.
Local Abbreviation fmt := (ieee_arith prec emax).

(** X8.  For IEEE scalars [a & a] is never below zero: it is [+0], a
    positive number, [+inf] or a NaN, and [(a & a) < 0] is false, whatever
    the components (special values included). *)
Theorem inner_product_self_not_negative (a : Vector spec_float) :
  match @operator_amp _ fmt a a with
  | Some r => IEEE.not_negative r = true /\ SFltb r (@zero _ fmt) = false
  | None => initialised a = false
  end.
Proof.
  cells a a1 a2 a3; destruct a1 as [a1|], a2 as [a2|], a3 as [a3|];
    try reflexivity.
  cbn.
  assert (H : IEEE.not_negative
                (SFadd prec emax
                   (SFadd prec emax (SFmul prec emax a1 a1) (SFmul prec emax a2 a2))
                   (SFmul prec emax a3 a3)) = true)
    by (repeat apply Arith_facts.SFadd_not_negative;
        apply Arith_facts.SFmul_self_not_negative).
  split; [exact H|]. now apply Arith_facts.not_negative_not_below_zero.
Qed.

(** X10.  For IEEE scalars, negating every component of both operands
    changes neither [a & b] nor [a ^ b]: the results are the same values,
    signs of zeros and special values included. *)
Theorem products_unchanged_by_reflection (a1 a2 a3 b1 b2 b3 : spec_float) :
  let a := vector a1 a2 a3 in
  let b := vector b1 b2 b3 in
  let a' := vector (@neg _ fmt a1) (@neg _ fmt a2) (@neg _ fmt a3) in
  let b' := vector (@neg _ fmt b1) (@neg _ fmt b2) (@neg _ fmt b3) in
  @operator_amp _ fmt a' b' = @operator_amp _ fmt a b
  /\ @operator_caret _ fmt a' b' = @operator_caret _ fmt a b.
Proof.
  cbn. now rewrite !Arith_facts.SFmul_opp_opp.
Qed.

End IEEEScalars.

End VectorI_laws.
